(** * accelerate-cuda: [cubits/accelerate_cuda_assert.h]

  The header is a handful of preprocessor directives.  Its meaning is a
  transformation of the macro table of the translation unit that includes
  it, together with the list of platform headers it pulls in.  This file
  embeds the directives as functions on that state and proves the
  properties of the capability gate (lines 24-27 of the header). *)

From stdpp Require Import gmap strings list fin_maps.
From Stdlib Require Import ZArith Lia.

(** ** Preprocessor model *)

Module Cpp.

(** Preprocessing tokens, as far as the header and its uses need them. *)
Inductive token : Type :=
| TId (x : string)
| TInt (z : Z)
| TStr (s : string)
| TPunct (p : string).

(** A macro definition: [#define X body] or [#define X(params) body]. *)
Inductive macro : Type :=
| ObjLike (body : list token)
| FunLike (params : list string) (body : list token).

#[global] Instance token_eq_dec : EqDecision token.
Proof. solve_decision. Defined.

#[global] Instance macro_eq_dec : EqDecision macro.
Proof. solve_decision. Defined.

(** The state of a translation unit while it is preprocessed: the macro
    table and the platform headers included so far, in order. *)
Record unit_state : Type := UnitState {
  macros : gmap string macro;
  included : list string
}.

(** [defined(X)], [#ifdef X]. *)
Definition pp_defined (x : string) (m : gmap string macro) : bool :=
  match m !! x with
  | Some _ => true
  | None => false
  end.

(** [#undef X]: removing a name that is not a macro is not an error. *)
Definition pp_undef (x : string) (st : unit_state) : unit_state :=
  UnitState (delete x (macros st)) (included st).

(** [#define X ...].  Defining again a macro that is still defined is
    accepted when the new definition is the same as the old one.  A
    different definition is a constraint violation of the language and gets
    no result here; compilers commonly accept it with a warning and let the
    new definition win, so nothing below is drawn from that arm: the header
    defines its guard only when it is undefined and [assert] only right
    after [#undef]. *)
Definition pp_define (x : string) (d : macro) (st : unit_state)
  : option unit_state :=
  match macros st !! x with
  | None => Some (UnitState (<[x := d]> (macros st)) (included st))
  | Some d' => if decide (d' = d) then Some st else None
  end.

(** [#include <h>], where the header's effect on the macro table is [f]. *)
Definition pp_include (h : string)
    (f : gmap string macro -> gmap string macro) (st : unit_state)
  : unit_state :=
  UnitState (f (macros st)) (included st ++ [h]).

(** The value an identifier has inside the controlling expression of an
    [#if].  A name that is not a macro counts as 0, and so does the name
    of a function-like macro that is not followed by a parenthesis.  An
    object-like macro is expected to stand for one integer literal, which
    is what a toolchain supplies for [__CUDA_ARCH__].  Any other replacement
    list is outside this model and gets no value: the preprocessor would
    expand and evaluate it, so [None] is not a verdict that preprocessing
    fails, except for the empty list.  Values are mathematical integers: for
    a literal that fits the preprocessor's widest integer type the
    comparison with 200 comes out the same. *)
Definition if_value (x : string) (m : gmap string macro) : option Z :=
  match m !! x with
  | None => Some 0%Z
  | Some (FunLike _ _) => Some 0%Z
  | Some (ObjLike [TInt z]) => Some z
  | Some (ObjLike _) => None
  end.

(** Replacement of the parameter [p] by the argument tokens in a macro
    body. *)
Fixpoint subst_param (p : string) (arg body : list token) : list token :=
  match body with
  | [] => []
  | TId x :: rest =>
      if String.eqb x p then arg ++ subst_param p arg rest
      else TId x :: subst_param p arg rest
  | t :: rest => t :: subst_param p arg rest
  end.

(** The tokens that the invocation [X(arg)] with one argument leaves
    behind.  A name that is not a macro stays as written; an object-like
    macro is replaced and the parenthesised argument follows it; a
    function-like macro must have one parameter. *)
Definition expand_call (x : string) (m : gmap string macro)
    (arg : list token) : option (list token) :=
  match m !! x with
  | None => Some (TId x :: TPunct "(" :: arg ++ [TPunct ")"])
  | Some (ObjLike body) => Some (body ++ TPunct "(" :: arg ++ [TPunct ")"])
  | Some (FunLike [p] body) => Some (subst_param p arg body)
  | Some (FunLike _ _) => None
  end.

End Cpp.

Import Cpp.

(** ** The header *)

(** The names the header tests or defines. *)
Definition __ACCELERATE_CUDA_ASSERT_H__ : string :=
  "__ACCELERATE_CUDA_ASSERT_H__".
Definition __CUDACC_RTC__ : string := "__CUDACC_RTC__".
Definition __CUDA_ARCH__ : string := "__CUDA_ARCH__".
Definition assert : string := "assert".

(** [#define assert(arg)] with an empty replacement list (line 26). *)
Definition noop_assert : macro := FunLike ["arg"] [].

(** Modelled from the spec: the toolchain's number for compute capability
    [major.minor], which is missing from the sources; the header's comment
    on line 22 pairs capability 2.0 with the constant 200 of line 24. *)
Definition arch_code (major minor : Z) : Z := (100 * major + 10 * minor)%Z.

(** Capabilities are ordered as pairs, major number first. *)
Definition cap_lt (a b : Z * Z) : Prop :=
  (fst a < fst b \/ (fst a = fst b /\ snd a < snd b))%Z.

(** A function on macro tables that leaves the name [x] as it found it. *)
Definition preserves (x : string)
    (f : gmap string macro -> gmap string macro) : Prop :=
  forall m, f m !! x = m !! x.

Section Header.

(** What [<assert.h>] and [<cuda_runtime.h>] do to the macro table is the
    platform's business. *)
Variable assert_h : gmap string macro -> gmap string macro.
Variable cuda_runtime_h : gmap string macro -> gmap string macro.

(** Line 24: [defined(__CUDA_ARCH__) && (__CUDA_ARCH__ < 200)].  The whole
    expression is parsed before it is evaluated, so the right operand
    needs a value even when the left one is false. *)
Definition gate_condition (m : gmap string macro) : option bool :=
  v ← if_value __CUDA_ARCH__ m;
  Some (pp_defined __CUDA_ARCH__ m && (v <? 200)%Z).

(** Lines 24-27: the capability gate. *)
Definition capability_gate (st : unit_state) : option unit_state :=
  c ← gate_condition (macros st);
  if c : bool then pp_define assert noop_assert (pp_undef assert st)
  else Some st.

(** Lines 16-19: the platform headers, unless compiling under NVRTC. *)
Definition platform_headers (st : unit_state) : unit_state :=
  if pp_defined __CUDACC_RTC__ (macros st) then st
  else pp_include "cuda_runtime.h" cuda_runtime_h
         (pp_include "assert.h" assert_h st).

(** Lines 13-29: the whole header, behind its include guard. *)
Definition accelerate_cuda_assert_h (st : unit_state) : option unit_state :=
  if pp_defined __ACCELERATE_CUDA_ASSERT_H__ (macros st) then Some st
  else
    st1 ← pp_define __ACCELERATE_CUDA_ASSERT_H__ (ObjLike []) st;
    capability_gate (platform_headers st1).

(** Including the header [n] times in a row. *)
Fixpoint include_times (n : nat) (st : unit_state) : option unit_state :=
  match n with
  | O => Some st
  | S k => st' ← include_times k st; accelerate_cuda_assert_h st'
  end.

(** Evaluating the gate alone [n] times in a row. *)
Fixpoint gate_times (n : nat) (st : unit_state) : option unit_state :=
  match n with
  | O => Some st
  | S k => st' ← gate_times k st; capability_gate st'
  end.

End Header.

(** The unit right after line 14: the include guard is defined. *)
Definition guarded (st : unit_state) : unit_state :=
  UnitState (<[__ACCELERATE_CUDA_ASSERT_H__ := ObjLike []]> (macros st))
    (included st).

(** ** Uses of the facility at run time *)

(** Where an assertion is written. *)
Record location : Type := Location {
  loc_file : string;
  loc_line : Z
}.

(** What a failed assertion reports. *)
Record diagnostic : Type := Diagnostic {
  failed_condition : list token;
  failed_at : location
}.

(** A unit of work either goes on in a new state or is terminated. *)
Inductive outcome (state : Type) : Type :=
| Continue (s : state)
| Terminate (s : state) (d : diagnostic).

Arguments Continue {state} s.
Arguments Terminate {state} s d.

Section Runtime.

Variable state : Type.

(** The platform compiler's meaning of a non-empty expression statement. *)
Variable sem : location -> list token -> state -> outcome state.

(** The platform's evaluation of a condition: its effects on the state and
    its truth value. *)
Variable eval : list token -> state -> state * bool.

(** The statement [toks ;].  With no tokens it is the null statement. *)
Definition exec_stmt (loc : location) (toks : list token) (s : state)
  : outcome state :=
  match toks with
  | [] => Continue s
  | _ => sem loc toks s
  end.

(** The statement [assert(arg);] written at [loc], compiled under the macro
    table [m] and run in state [s]. *)
Definition run_assert (m : gmap string macro) (loc : location)
    (arg : list token) (s : state) : option (outcome state) :=
  toks ← expand_call assert m arg;
  Some (exec_stmt loc toks s).

(** Modelled from the spec: the platform-native assertion facility, which is
    missing from the sources: it evaluates the condition and, if it is false,
    terminates the executing unit of work and reports the failing condition,
    file and line. *)
Definition native_assert (loc : location) (arg : list token) (s : state)
  : outcome state :=
  let (s', b) := eval arg s in
  if b then Continue s' else Terminate s' (Diagnostic arg loc).

(** The facility found in the macro table [m] is the native one. *)
Definition provides_native (m : gmap string macro) : Prop :=
  forall loc arg s, run_assert m loc arg s = Some (native_assert loc arg s).

End Runtime.

(** Lines 25-26 carried out on a unit: [assert] has the empty definition
    and nothing else has changed. *)
Definition substituted (st : unit_state) : unit_state :=
  UnitState (<[assert := noop_assert]> (macros st)) (included st).

(** [__CUDA_ARCH__] as a toolchain supplies it: absent, or one integer. *)
Definition arch_well_formed (m : gmap string macro) : Prop :=
  m !! __CUDA_ARCH__ = None \/
  exists v, m !! __CUDA_ARCH__ = Some (ObjLike [TInt v]).

(** The unit when it reaches line 24: guard defined, platform headers in. *)
Definition at_gate
    (assert_h cuda_runtime_h : gmap string macro -> gmap string macro)
    (st : unit_state) : unit_state :=
  platform_headers assert_h cuda_runtime_h (guarded st).

(** The specification's host-native facility: [assert(arg);] in a unit that
    takes the facility from the host environment by itself (lines 16-19 and
    nothing else), without the guard and without the gate. *)
Definition host_native_run
    (assert_h cuda_runtime_h : gmap string macro -> gmap string macro)
    (state : Type) (sem : location -> list token -> state -> outcome state)
    (st : unit_state) (loc : location) (arg : list token) (s : state)
  : option (outcome state) :=
  run_assert state sem (macros (platform_headers assert_h cuda_runtime_h st))
    loc arg s.

(** The platform headers give [assert] the same definition whether or not
    this header's include guard is defined. *)
Definition blind_to_guard
    (assert_h cuda_runtime_h : gmap string macro -> gmap string macro) : Prop :=
  forall st,
    macros (platform_headers assert_h cuda_runtime_h (guarded st)) !! assert
    = macros (platform_headers assert_h cuda_runtime_h st) !! assert.

(** ** A sample platform and sample units

    Concrete instances of what the development leaves to the platform:
    they serve to run the definitions on examples. *)

Module Sample.

(** An [<assert.h>] whose macro hands the condition to a checking routine. *)
Definition assert_h (m : gmap string macro) : gmap string macro :=
  <[assert := FunLike ["expr"] [TId "__assert_check"; TId "expr"]]> m.

Definition cuda_runtime_h (m : gmap string macro) : gmap string macro :=
  <["__CUDA_RUNTIME_H__" := ObjLike []]> m.

(** The run-time state is the log of observable effects so far. *)
Definition state : Type := list string.

(** A literal is true when it is not 0; anything that starts with a name is
    a call that logs the name and yields 0. *)
Definition eval (arg : list token) (s : state) : state * bool :=
  match arg with
  | [TInt z] => (s, negb (z =? 0)%Z)
  | TId f :: _ => (s ++ [f], false)
  | _ => (s, true)
  end.

Definition sem (loc : location) (toks : list token) (s : state)
  : outcome state :=
  match toks with
  | TId f :: arg =>
      if String.eqb f "__assert_check" then native_assert state eval loc arg s
      else Continue s
  | _ => Continue s
  end.

(** Device passes for capability 1.1, 2.0 and 3.0, a host pass, and a device
    pass for capability 1.1 under NVRTC. *)
Definition device_unit (major minor : Z) : unit_state :=
  UnitState {[__CUDA_ARCH__ := ObjLike [TInt (arch_code major minor)]]} [].

Definition host_unit : unit_state := UnitState ∅ [].

Definition rtc_unit : unit_state :=
  UnitState (<[__CUDACC_RTC__ := ObjLike []]> (macros (device_unit 1 1))) [].

Definition here : location := Location "kernel.cu" 42.

(** The units that the three passes above are after the header. *)
Definition device_1_1_after : unit_state :=
  UnitState
    (<[assert := noop_assert]>
       (cuda_runtime_h (assert_h (macros (guarded (device_unit 1 1))))))
    ["assert.h"; "cuda_runtime.h"].

Definition host_after : unit_state :=
  UnitState (cuda_runtime_h (assert_h (macros (guarded host_unit))))
    ["assert.h"; "cuda_runtime.h"].

Definition rtc_after : unit_state :=
  UnitState (<[assert := noop_assert]> (macros (guarded rtc_unit))) [].

End Sample.

(** ** Basic facts about the directives *)

Lemma pp_defined_true x (m : gmap string macro) :
  pp_defined x m = true <-> is_Some (m !! x).
Proof.
  unfold pp_defined. destruct (m !! x) as [d|]; split; intros H.
  - eauto.
  - reflexivity.
  - discriminate.
  - destruct H as [d H]. discriminate.
Qed.

Lemma pp_defined_false x (m : gmap string macro) :
  pp_defined x m = false <-> m !! x = None.
Proof.
  unfold pp_defined. destruct (m !! x); split; intros H;
    try reflexivity; discriminate.
Qed.

Lemma pp_defined_ext x (m1 m2 : gmap string macro) :
  m1 !! x = m2 !! x -> pp_defined x m1 = pp_defined x m2.
Proof. unfold pp_defined. intros ->. reflexivity. Qed.

Lemma if_value_ext x (m1 m2 : gmap string macro) :
  m1 !! x = m2 !! x -> if_value x m1 = if_value x m2.
Proof. unfold if_value. intros ->. reflexivity. Qed.

Lemma pp_define_fresh x d st :
  macros st !! x = None ->
  pp_define x d st = Some (UnitState (<[x := d]> (macros st)) (included st)).
Proof. unfold pp_define. intros ->. reflexivity. Qed.

Lemma pp_define_after_undef x d st :
  pp_define x d (pp_undef x st)
  = Some (UnitState (<[x := d]> (macros st)) (included st)).
Proof.
  rewrite pp_define_fresh by apply lookup_delete_eq.
  simpl. rewrite insert_delete_eq. reflexivity.
Qed.

Lemma pp_define_guard st :
  pp_defined __ACCELERATE_CUDA_ASSERT_H__ (macros st) = false ->
  pp_define __ACCELERATE_CUDA_ASSERT_H__ (ObjLike []) st = Some (guarded st).
Proof. intros H. apply pp_define_fresh, pp_defined_false, H. Qed.

Lemma guarded_lookup_ne st x :
  x <> __ACCELERATE_CUDA_ASSERT_H__ ->
  macros (guarded st) !! x = macros st !! x.
Proof. intros H. simpl. apply lookup_insert_ne. congruence. Qed.

(** ** The condition of line 24 *)

Lemma gate_condition_ext (m1 m2 : gmap string macro) :
  m1 !! __CUDA_ARCH__ = m2 !! __CUDA_ARCH__ ->
  gate_condition m1 = gate_condition m2.
Proof.
  intros H. unfold gate_condition.
  rewrite (if_value_ext _ _ _ H), (pp_defined_ext _ _ _ H). reflexivity.
Qed.

Lemma gate_condition_undefined (m : gmap string macro) :
  m !! __CUDA_ARCH__ = None -> gate_condition m = Some false.
Proof.
  intros H. unfold gate_condition, if_value, pp_defined. rewrite H.
  reflexivity.
Qed.

Lemma gate_condition_literal (m : gmap string macro) v :
  m !! __CUDA_ARCH__ = Some (ObjLike [TInt v]) ->
  gate_condition m = Some (v <? 200)%Z.
Proof.
  intros H. unfold gate_condition, if_value, pp_defined. rewrite H.
  reflexivity.
Qed.

Lemma gate_condition_true (m : gmap string macro) :
  gate_condition m = Some true ->
  pp_defined __CUDA_ARCH__ m = true /\
  exists v, if_value __CUDA_ARCH__ m = Some v /\ (v < 200)%Z.
Proof.
  unfold gate_condition. destruct (if_value __CUDA_ARCH__ m) as [v|]; simpl;
    [|discriminate].
  intros H. injection H as H. apply andb_true_iff in H as [Hd Hv].
  split; [exact Hd|]. exists v. split; [reflexivity|]. lia.
Qed.

Lemma arch_code_below (major minor : Z) :
  (0 <= minor <= 9)%Z ->
  (arch_code major minor < 200)%Z <-> cap_lt (major, minor) (2, 0)%Z.
Proof. unfold arch_code, cap_lt. simpl. lia. Qed.

(** ** The gate and the header, case by case *)

Lemma capability_gate_on st :
  gate_condition (macros st) = Some true ->
  capability_gate st
  = Some (UnitState (<[assert := noop_assert]> (macros st)) (included st)).
Proof.
  intros H. unfold capability_gate. rewrite H. simpl.
  apply pp_define_after_undef.
Qed.

Lemma capability_gate_off st :
  gate_condition (macros st) = Some false -> capability_gate st = Some st.
Proof. intros H. unfold capability_gate. rewrite H. reflexivity. Qed.

Lemma capability_gate_total st c :
  gate_condition (macros st) = Some c -> is_Some (capability_gate st).
Proof.
  destruct c; intros H.
  - rewrite capability_gate_on by exact H. eauto.
  - rewrite capability_gate_off by exact H. eauto.
Qed.

Lemma capability_gate_frame st st' :
  capability_gate st = Some st' ->
  included st' = included st /\
  forall x, x <> assert -> macros st' !! x = macros st !! x.
Proof.
  unfold capability_gate.
  destruct (gate_condition (macros st)) as [[|]|] eqn:E; simpl;
    [|intros [= <-]; auto|discriminate].
  rewrite pp_define_after_undef. intros [= <-]. simpl. split; [reflexivity|].
  intros x Hx. apply lookup_insert_ne. congruence.
Qed.

Section Platform.

Variable assert_h : gmap string macro -> gmap string macro.
Variable cuda_runtime_h : gmap string macro -> gmap string macro.

Lemma platform_headers_preserves x st :
  preserves x assert_h -> preserves x cuda_runtime_h ->
  macros (platform_headers assert_h cuda_runtime_h st) !! x = macros st !! x.
Proof.
  intros Ha Hc. unfold platform_headers.
  destruct (pp_defined __CUDACC_RTC__ (macros st)); [reflexivity|].
  simpl. rewrite Hc, Ha. reflexivity.
Qed.

Lemma header_first st :
  pp_defined __ACCELERATE_CUDA_ASSERT_H__ (macros st) = false ->
  accelerate_cuda_assert_h assert_h cuda_runtime_h st
  = capability_gate (platform_headers assert_h cuda_runtime_h (guarded st)).
Proof.
  intros H. unfold accelerate_cuda_assert_h. rewrite H.
  rewrite pp_define_guard by exact H. reflexivity.
Qed.

Lemma header_again st :
  pp_defined __ACCELERATE_CUDA_ASSERT_H__ (macros st) = true ->
  accelerate_cuda_assert_h assert_h cuda_runtime_h st = Some st.
Proof. intros H. unfold accelerate_cuda_assert_h. rewrite H. reflexivity. Qed.

Lemma at_gate_preserves x st :
  x <> __ACCELERATE_CUDA_ASSERT_H__ ->
  preserves x assert_h -> preserves x cuda_runtime_h ->
  macros (platform_headers assert_h cuda_runtime_h (guarded st)) !! x
  = macros st !! x.
Proof.
  intros Hx Ha Hc. rewrite platform_headers_preserves by assumption.
  apply guarded_lookup_ne, Hx.
Qed.

End Platform.

(** ** Running an assertion *)

Section Run.

Variable state : Type.
Variable sem : location -> list token -> state -> outcome state.

Lemma expand_noop (m : gmap string macro) arg :
  m !! assert = Some noop_assert -> expand_call assert m arg = Some [].
Proof. intros H. unfold expand_call. rewrite H. reflexivity. Qed.

Lemma run_noop (m : gmap string macro) loc arg s :
  m !! assert = Some noop_assert ->
  run_assert state sem m loc arg s = Some (Continue s).
Proof.
  intros H. unfold run_assert. rewrite (expand_noop m arg H). reflexivity.
Qed.

Lemma run_assert_ext (m1 m2 : gmap string macro) loc arg s :
  m1 !! assert = m2 !! assert ->
  run_assert state sem m1 loc arg s = run_assert state sem m2 loc arg s.
Proof. intros H. unfold run_assert, expand_call. rewrite H. reflexivity. Qed.

End Run.

(** ** Facts about the sample platform *)

Lemma sample_assert_h_preserves x :
  x <> assert -> preserves x Sample.assert_h.
Proof. intros H m. apply lookup_insert_ne. congruence. Qed.

Lemma sample_cuda_runtime_h_preserves x :
  x <> "__CUDA_RUNTIME_H__" -> preserves x Sample.cuda_runtime_h.
Proof. intros H m. apply lookup_insert_ne. congruence. Qed.

Lemma sample_provides_native (m : gmap string macro) :
  m !! assert = Some (FunLike ["expr"] [TId "__assert_check"; TId "expr"]) ->
  provides_native Sample.state Sample.sem Sample.eval m.
Proof.
  intros H loc arg s. unfold run_assert, expand_call. rewrite H. simpl.
  rewrite app_nil_r. reflexivity.
Qed.

(** ** Device passes below compute capability 2.0 *)

Section LegacyDevice.

Variable assert_h : gmap string macro -> gmap string macro.
Variable cuda_runtime_h : gmap string macro -> gmap string macro.
Variable state : Type.
Variable sem : location -> list token -> state -> outcome state.

(** The platform headers do not touch the toolchain's [__CUDA_ARCH__]. *)
Hypothesis assert_h_arch : preserves __CUDA_ARCH__ assert_h.
Hypothesis cuda_runtime_h_arch : preserves __CUDA_ARCH__ cuda_runtime_h.

(** A unit that includes the header for the first time, in a device pass
    whose architecture number is [v], below 200. *)
Variable st : unit_state.
Variable v : Z.
Hypothesis first_inclusion :
  pp_defined __ACCELERATE_CUDA_ASSERT_H__ (macros st) = false.
Hypothesis device_pass : macros st !! __CUDA_ARCH__ = Some (ObjLike [TInt v]).
Hypothesis below : (v < 200)%Z.

Lemma legacy_gate_condition :
  gate_condition (macros (at_gate assert_h cuda_runtime_h st)) = Some true.
Proof.
  rewrite (gate_condition_ext _ (macros st)).
  - rewrite (gate_condition_literal _ v device_pass).
    f_equal. apply Z.ltb_lt, below.
  - apply at_gate_preserves; [discriminate|assumption..].
Qed.

(** C1: in a device pass below capability 2.0 the header succeeds and leaves
    [assert] defined with an empty replacement list, so that [assert(arg)]
    with any argument expands to no tokens at all (no check is emitted and
    the condition's tokens are dropped), and the statement runs as the null
    statement: whatever the condition means, the state is unchanged and the
    unit of work goes on. *)
Theorem assert_is_noop_below_200 :
  exists st',
    accelerate_cuda_assert_h assert_h cuda_runtime_h st = Some st' /\
    macros st' !! assert = Some noop_assert /\
    forall loc arg s,
      expand_call assert (macros st') arg = Some [] /\
      run_assert state sem (macros st') loc arg s = Some (Continue s).
Proof.
  eexists. split.
  - rewrite header_first by exact first_inclusion.
    apply capability_gate_on, legacy_gate_condition.
  - simpl. split; [apply lookup_insert_eq|].
    intros loc arg s. split.
    + apply expand_noop, lookup_insert_eq.
    + apply run_noop, lookup_insert_eq.
Qed.

End LegacyDevice.

Lemma assert_is_noop_below_200_witness :
  exists st',
    accelerate_cuda_assert_h Sample.assert_h Sample.cuda_runtime_h
      (Sample.device_unit 1 1) = Some st' /\
    macros st' !! assert = Some noop_assert /\
    forall loc arg s,
      expand_call assert (macros st') arg = Some [] /\
      run_assert Sample.state Sample.sem (macros st') loc arg s
      = Some (Continue s).
Proof.
  apply (assert_is_noop_below_200 Sample.assert_h Sample.cuda_runtime_h
           Sample.state Sample.sem
           (sample_assert_h_preserves __CUDA_ARCH__ ltac:(discriminate))
           (sample_cuda_runtime_h_preserves __CUDA_ARCH__ ltac:(discriminate))
           (Sample.device_unit 1 1) (arch_code 1 1)).
  - reflexivity.
  - reflexivity.
  - reflexivity.
Defined.

(** A unit with [assert(0)] and one with an assertion that has an observable
    effect, each compiled for capability 1.1 and for capability 3.0. *)

Example scenario_1_1 :
  (st' ← accelerate_cuda_assert_h Sample.assert_h Sample.cuda_runtime_h
           (Sample.device_unit 1 1);
   run_assert Sample.state Sample.sem (macros st') Sample.here [TInt 0] [])
  = Some (Continue []).
Proof. vm_compute. reflexivity. Qed.

Example scenario_1_1_effect :
  (st' ← accelerate_cuda_assert_h Sample.assert_h Sample.cuda_runtime_h
           (Sample.device_unit 1 1);
   run_assert Sample.state Sample.sem (macros st') Sample.here
     [TId "tick"; TPunct "("; TPunct ")"] [])
  = Some (Continue []).
Proof. vm_compute. reflexivity. Qed.

Example scenario_3_0 :
  (st' ← accelerate_cuda_assert_h Sample.assert_h Sample.cuda_runtime_h
           (Sample.device_unit 3 0);
   run_assert Sample.state Sample.sem (macros st') Sample.here [TInt 0] [])
  = Some (Terminate [] (Diagnostic [TInt 0] Sample.here)).
Proof. vm_compute. reflexivity. Qed.

Example scenario_3_0_effect :
  (st' ← accelerate_cuda_assert_h Sample.assert_h Sample.cuda_runtime_h
           (Sample.device_unit 3 0);
   run_assert Sample.state Sample.sem (macros st') Sample.here
     [TId "tick"; TPunct "("; TPunct ")"] [])
  = Some (Terminate ["tick"]
            (Diagnostic [TId "tick"; TPunct "("; TPunct ")"] Sample.here)).
Proof. vm_compute. reflexivity. Qed.

(** ** The threshold *)

(** C2: in a device pass whose architecture number is [v], the condition of
    line 24 holds exactly when [v] is strictly below the number of
    capability 2.0; at capability 2.0 itself the condition is false and the
    gate returns the unit as it found it. *)
Theorem capability_2_0_is_intact (st : unit_state) (v : Z) :
  macros st !! __CUDA_ARCH__ = Some (ObjLike [TInt v]) ->
  (gate_condition (macros st) = Some true <-> (v < arch_code 2 0)%Z) /\
  (v = arch_code 2 0 ->
   gate_condition (macros st) = Some false /\ capability_gate st = Some st).
Proof.
  intros H. rewrite (gate_condition_literal _ v H). split.
  - change (arch_code 2 0) with 200%Z. split.
    + intros [= E]. apply Z.ltb_lt, E.
    + intros E. f_equal. apply Z.ltb_lt, E.
  - intros ->. split; [reflexivity|].
    apply capability_gate_off. rewrite (gate_condition_literal _ _ H).
    reflexivity.
Qed.

Lemma capability_2_0_is_intact_witness :
  (gate_condition (macros (Sample.device_unit 2 0)) = Some true <->
   (arch_code 2 0 < arch_code 2 0)%Z) /\
  (arch_code 2 0 = arch_code 2 0 ->
   gate_condition (macros (Sample.device_unit 2 0)) = Some false /\
   capability_gate (Sample.device_unit 2 0) = Some (Sample.device_unit 2 0)).
Proof.
  apply (capability_2_0_is_intact (Sample.device_unit 2 0) (arch_code 2 0)).
  reflexivity.
Defined.

(** The same threshold on capabilities written as pairs. *)
Lemma gate_condition_capability (m : gmap string macro) (major minor : Z) :
  (0 <= minor <= 9)%Z ->
  m !! __CUDA_ARCH__ = Some (ObjLike [TInt (arch_code major minor)]) ->
  gate_condition m = Some true <-> cap_lt (major, minor) (2, 0)%Z.
Proof.
  intros Hm H. rewrite (gate_condition_literal _ _ H).
  rewrite <- (arch_code_below major minor Hm). split.
  - intros [= E]. apply Z.ltb_lt, E.
  - intros E. f_equal. apply Z.ltb_lt, E.
Qed.

(** C9: when [__CUDA_ARCH__] is not defined at all the gate returns the unit
    as it found it, and the gate takes its substituting branch exactly when
    [__CUDA_ARCH__] is defined and its value is below 200. *)
Theorem no_capability_is_intact (st : unit_state) :
  (macros st !! __CUDA_ARCH__ = None ->
   gate_condition (macros st) = Some false /\ capability_gate st = Some st) /\
  (gate_condition (macros st) = Some true <->
   pp_defined __CUDA_ARCH__ (macros st) = true /\
   exists v, if_value __CUDA_ARCH__ (macros st) = Some v /\ (v < 200)%Z).
Proof.
  split.
  - intros H. split; [apply gate_condition_undefined, H|].
    apply capability_gate_off, gate_condition_undefined, H.
  - split; [apply gate_condition_true|].
    intros [Hd [v [Hv Hlt]]]. unfold gate_condition. rewrite Hv, Hd. simpl.
    f_equal. apply Z.ltb_lt, Hlt.
Qed.

Lemma no_capability_is_intact_witness :
  gate_condition (macros Sample.host_unit) = Some false /\
  capability_gate Sample.host_unit = Some Sample.host_unit.
Proof.
  apply (proj1 (no_capability_is_intact Sample.host_unit)). reflexivity.
Defined.

(** ** Passes in which the gate leaves the facility alone *)

Section Intact.

Variable assert_h : gmap string macro -> gmap string macro.
Variable cuda_runtime_h : gmap string macro -> gmap string macro.
Variable state : Type.
Variable sem : location -> list token -> state -> outcome state.
Variable eval : list token -> state -> state * bool.

Hypothesis assert_h_arch : preserves __CUDA_ARCH__ assert_h.
Hypothesis cuda_runtime_h_arch : preserves __CUDA_ARCH__ cuda_runtime_h.

Variable st : unit_state.
Hypothesis first_inclusion :
  pp_defined __ACCELERATE_CUDA_ASSERT_H__ (macros st) = false.

Lemma intact_header :
  gate_condition (macros st) = Some false ->
  accelerate_cuda_assert_h assert_h cuda_runtime_h st
  = Some (at_gate assert_h cuda_runtime_h st).
Proof.
  intros H. rewrite header_first by exact first_inclusion.
  apply capability_gate_off. rewrite <- H. apply gate_condition_ext.
  apply at_gate_preserves; [discriminate|assumption..].
Qed.

(** C3: in a pass that is not device-side ([__CUDA_ARCH__] undefined) the
    header succeeds and the unit it leaves is the unit as it reached line 24,
    so the definition of [assert] is the one the host environment provided;
    and, the platform headers being blind to this header's guard, every
    assertion statement runs exactly as the host-native facility runs it. *)
Theorem host_pass_is_native :
  macros st !! __CUDA_ARCH__ = None ->
  exists st',
    accelerate_cuda_assert_h assert_h cuda_runtime_h st = Some st' /\
    st' = at_gate assert_h cuda_runtime_h st /\
    (blind_to_guard assert_h cuda_runtime_h ->
     forall loc arg s,
       run_assert state sem (macros st') loc arg s
       = host_native_run assert_h cuda_runtime_h state sem st loc arg s).
Proof.
  intros H. exists (at_gate assert_h cuda_runtime_h st). split.
  - apply intact_header, gate_condition_undefined, H.
  - split; [reflexivity|]. intros Hblind loc arg s.
    apply run_assert_ext, Hblind.
Qed.

(** C4: in a device pass at capability 2.0 or above, where the platform
    provides the native facility, the header succeeds and an assertion whose
    condition evaluates to false terminates the unit of work with a
    diagnostic naming the condition and its place, while one whose condition
    evaluates to true lets the unit go on in the state the condition left. *)
Theorem assert_checks_from_200 (v : Z) :
  macros st !! __CUDA_ARCH__ = Some (ObjLike [TInt v]) ->
  (200 <= v)%Z ->
  provides_native state sem eval
    (macros (at_gate assert_h cuda_runtime_h st)) ->
  exists st',
    accelerate_cuda_assert_h assert_h cuda_runtime_h st = Some st' /\
    forall loc arg s s',
      (eval arg s = (s', false) ->
       run_assert state sem (macros st') loc arg s
       = Some (Terminate s' (Diagnostic arg loc))) /\
      (eval arg s = (s', true) ->
       run_assert state sem (macros st') loc arg s = Some (Continue s')).
Proof.
  intros H Hv Hnative. exists (at_gate assert_h cuda_runtime_h st). split.
  - apply intact_header. rewrite (gate_condition_literal _ v H).
    f_equal. apply Z.ltb_ge, Hv.
  - intros loc arg s s'. rewrite (Hnative loc arg s). unfold native_assert.
    split; intros ->; reflexivity.
Qed.

End Intact.

Lemma sample_blind_to_guard :
  blind_to_guard Sample.assert_h Sample.cuda_runtime_h.
Proof.
  intros st. unfold platform_headers.
  rewrite (pp_defined_ext __CUDACC_RTC__ (macros (guarded st)) (macros st))
    by (apply guarded_lookup_ne; discriminate).
  destruct (pp_defined __CUDACC_RTC__ (macros st)).
  - apply guarded_lookup_ne. discriminate.
  - simpl. unfold Sample.cuda_runtime_h, Sample.assert_h.
    rewrite lookup_insert_ne by discriminate. rewrite lookup_insert_eq.
    symmetry.
    rewrite lookup_insert_ne by discriminate. apply lookup_insert_eq.
Qed.

Lemma host_pass_is_native_witness :
  exists st',
    accelerate_cuda_assert_h Sample.assert_h Sample.cuda_runtime_h
      Sample.host_unit = Some st' /\
    st' = at_gate Sample.assert_h Sample.cuda_runtime_h Sample.host_unit /\
    (blind_to_guard Sample.assert_h Sample.cuda_runtime_h ->
     forall loc arg s,
       run_assert Sample.state Sample.sem (macros st') loc arg s
       = host_native_run Sample.assert_h Sample.cuda_runtime_h
           Sample.state Sample.sem Sample.host_unit loc arg s).
Proof.
  apply (host_pass_is_native Sample.assert_h Sample.cuda_runtime_h
           Sample.state Sample.sem
           (sample_assert_h_preserves __CUDA_ARCH__ ltac:(discriminate))
           (sample_cuda_runtime_h_preserves __CUDA_ARCH__ ltac:(discriminate))
           Sample.host_unit).
  - reflexivity.
  - reflexivity.
Defined.

Example host_pass_runs_native :
  (st' ← accelerate_cuda_assert_h Sample.assert_h Sample.cuda_runtime_h
           Sample.host_unit;
   run_assert Sample.state Sample.sem (macros st') Sample.here [TInt 0] [])
  = host_native_run Sample.assert_h Sample.cuda_runtime_h
      Sample.state Sample.sem Sample.host_unit Sample.here [TInt 0] [].
Proof. vm_compute. reflexivity. Qed.

Lemma assert_checks_from_200_witness :
  exists st',
    accelerate_cuda_assert_h Sample.assert_h Sample.cuda_runtime_h
      (Sample.device_unit 3 0) = Some st' /\
    forall loc arg s s',
      (Sample.eval arg s = (s', false) ->
       run_assert Sample.state Sample.sem (macros st') loc arg s
       = Some (Terminate s' (Diagnostic arg loc))) /\
      (Sample.eval arg s = (s', true) ->
       run_assert Sample.state Sample.sem (macros st') loc arg s
       = Some (Continue s')).
Proof.
  apply (assert_checks_from_200 Sample.assert_h Sample.cuda_runtime_h
           Sample.state Sample.sem Sample.eval
           (sample_assert_h_preserves __CUDA_ARCH__ ltac:(discriminate))
           (sample_cuda_runtime_h_preserves __CUDA_ARCH__ ltac:(discriminate))
           (Sample.device_unit 3 0) ltac:(reflexivity) (arch_code 3 0)).
  - reflexivity.
  - vm_compute. discriminate.
  - apply sample_provides_native. reflexivity.
Defined.

(** ** Evaluating the gate more than once *)

Lemma capability_gate_idem st :
  capability_gate st ≫= capability_gate = capability_gate st.
Proof.
  destruct (gate_condition (macros st)) as [[|]|] eqn:E.
  - rewrite (capability_gate_on st E). simpl.
    rewrite capability_gate_on.
    + simpl. rewrite insert_insert_eq. reflexivity.
    + simpl. rewrite <- E. apply gate_condition_ext.
      apply lookup_insert_ne. discriminate.
  - rewrite (capability_gate_off st E). simpl.
    apply capability_gate_off, E.
  - unfold capability_gate. rewrite E. reflexivity.
Qed.

Lemma gate_times_once n st : gate_times (S n) st = capability_gate st.
Proof.
  induction n as [|n IH]; [reflexivity|].
  change (gate_times (S (S n)) st)
    with (gate_times (S n) st ≫= capability_gate).
  rewrite IH. apply capability_gate_idem.
Qed.

Section Reinclusion.

Variable assert_h : gmap string macro -> gmap string macro.
Variable cuda_runtime_h : gmap string macro -> gmap string macro.

(** The platform headers do not touch this header's include guard. *)
Hypothesis assert_h_guard : preserves __ACCELERATE_CUDA_ASSERT_H__ assert_h.
Hypothesis cuda_runtime_h_guard :
  preserves __ACCELERATE_CUDA_ASSERT_H__ cuda_runtime_h.

Lemma header_defines_guard st st' :
  accelerate_cuda_assert_h assert_h cuda_runtime_h st = Some st' ->
  pp_defined __ACCELERATE_CUDA_ASSERT_H__ (macros st') = true.
Proof.
  destruct (pp_defined __ACCELERATE_CUDA_ASSERT_H__ (macros st)) eqn:G.
  - rewrite header_again by exact G. intros [= <-]. exact G.
  - rewrite header_first by exact G. intros H.
    apply capability_gate_frame in H as [_ H].
    apply pp_defined_true. rewrite H by discriminate.
    rewrite platform_headers_preserves by assumption.
    simpl. rewrite lookup_insert_eq. eauto.
Qed.

Lemma header_idem st :
  accelerate_cuda_assert_h assert_h cuda_runtime_h st
    ≫= accelerate_cuda_assert_h assert_h cuda_runtime_h
  = accelerate_cuda_assert_h assert_h cuda_runtime_h st.
Proof.
  destruct (accelerate_cuda_assert_h assert_h cuda_runtime_h st)
    as [st'|] eqn:E; [|reflexivity].
  simpl. apply header_again, (header_defines_guard st), E.
Qed.

(** C5: including the header any number of times in a row, at least once,
    gives the result of including it once, and so does evaluating the gate
    alone any number of times: the final definition of [assert] is the one
    of the first evaluation. *)
Theorem reinclusion_is_idempotent (n : nat) (st : unit_state) :
  include_times assert_h cuda_runtime_h (S n) st
  = accelerate_cuda_assert_h assert_h cuda_runtime_h st /\
  gate_times (S n) st = capability_gate st.
Proof.
  split; [|apply gate_times_once].
  induction n as [|n IH]; [reflexivity|].
  change (include_times assert_h cuda_runtime_h (S (S n)) st)
    with (include_times assert_h cuda_runtime_h (S n) st
            ≫= accelerate_cuda_assert_h assert_h cuda_runtime_h).
  rewrite IH. apply header_idem.
Qed.

End Reinclusion.

Lemma reinclusion_is_idempotent_witness :
  include_times Sample.assert_h Sample.cuda_runtime_h 3 (Sample.device_unit 1 1)
  = accelerate_cuda_assert_h Sample.assert_h Sample.cuda_runtime_h
      (Sample.device_unit 1 1) /\
  gate_times 3 (Sample.device_unit 1 1)
  = capability_gate (Sample.device_unit 1 1).
Proof.
  apply (reinclusion_is_idempotent Sample.assert_h Sample.cuda_runtime_h
           (sample_assert_h_preserves __ACCELERATE_CUDA_ASSERT_H__
              ltac:(discriminate))
           (sample_cuda_runtime_h_preserves __ACCELERATE_CUDA_ASSERT_H__
              ltac:(discriminate))
           2%nat (Sample.device_unit 1 1)).
Defined.

(** ** What the gate touches *)

(** C7: when the gate succeeds, the list of included headers is as before
    and so is every macro other than [assert]; [assert] itself either keeps
    its definition or gets the empty one. *)
Theorem gate_changes_only_assert (st st' : unit_state) :
  capability_gate st = Some st' ->
  included st' = included st /\
  (forall x, x <> assert -> macros st' !! x = macros st !! x) /\
  (macros st' !! assert = macros st !! assert \/
   macros st' !! assert = Some noop_assert).
Proof.
  intros H. destruct (capability_gate_frame st st' H) as [Hi Hm].
  split; [exact Hi|]. split; [exact Hm|].
  destruct (gate_condition (macros st)) as [[|]|] eqn:E.
  - rewrite (capability_gate_on st E) in H. injection H as <-.
    right. apply lookup_insert_eq.
  - rewrite (capability_gate_off st E) in H. injection H as <-.
    left. reflexivity.
  - unfold capability_gate in H. rewrite E in H. discriminate.
Qed.

Lemma gate_changes_only_assert_witness :
  included (UnitState (<[assert := noop_assert]>
                         (macros (Sample.device_unit 1 1))) [])
  = included (Sample.device_unit 1 1) /\
  (forall x, x <> assert ->
     macros (UnitState (<[assert := noop_assert]>
                          (macros (Sample.device_unit 1 1))) []) !! x
     = macros (Sample.device_unit 1 1) !! x) /\
  (macros (UnitState (<[assert := noop_assert]>
                        (macros (Sample.device_unit 1 1))) []) !! assert
   = macros (Sample.device_unit 1 1) !! assert \/
   macros (UnitState (<[assert := noop_assert]>
                        (macros (Sample.device_unit 1 1))) []) !! assert
   = Some noop_assert).
Proof.
  apply (gate_changes_only_assert (Sample.device_unit 1 1)).
  vm_compute. reflexivity.
Defined.

(** The header around the gate does more: it defines its include guard and,
    outside NVRTC, takes in whatever the platform headers define. *)
Example header_defines_its_guard :
  (st' ← accelerate_cuda_assert_h Sample.assert_h Sample.cuda_runtime_h
           Sample.host_unit;
   macros st' !! __ACCELERATE_CUDA_ASSERT_H__)
  = Some (ObjLike []).
Proof. vm_compute. reflexivity. Qed.

(** ** The decision *)

Section Decision.

Variable assert_h : gmap string macro -> gmap string macro.
Variable cuda_runtime_h : gmap string macro -> gmap string macro.
Variable state : Type.
Variable sem : location -> list token -> state -> outcome state.

Lemma gate_condition_inputs (m1 m2 : gmap string macro) :
  pp_defined __CUDA_ARCH__ m1 = pp_defined __CUDA_ARCH__ m2 ->
  if_value __CUDA_ARCH__ m1 = if_value __CUDA_ARCH__ m2 ->
  gate_condition m1 = gate_condition m2.
Proof. intros Hd Hv. unfold gate_condition. rewrite Hd, Hv. reflexivity. Qed.

Lemma gate_fixes_the_facility st st' :
  capability_gate st = Some st' ->
  (forall loc arg s,
     run_assert state sem (macros st') loc arg s = Some (Continue s)) \/
  (forall loc arg s,
     run_assert state sem (macros st') loc arg s
     = run_assert state sem (macros st) loc arg s).
Proof.
  intros H. destruct (gate_condition (macros st)) as [[|]|] eqn:E.
  - rewrite (capability_gate_on st E) in H. injection H as <-.
    left. intros loc arg s. apply run_noop, lookup_insert_eq.
  - rewrite (capability_gate_off st E) in H. injection H as <-.
    right. reflexivity.
  - unfold capability_gate in H. rewrite E in H. discriminate.
Qed.

Lemma capability_gate_decides st v :
  if_value __CUDA_ARCH__ (macros st) = Some v ->
  capability_gate st
  = Some (if pp_defined __CUDA_ARCH__ (macros st) && (v <? 200)%Z
          then substituted st else st).
Proof.
  intros Hv.
  assert (E : gate_condition (macros st)
              = Some (pp_defined __CUDA_ARCH__ (macros st) && (v <? 200)%Z)).
  { unfold gate_condition. rewrite Hv. reflexivity. }
  destruct (pp_defined __CUDA_ARCH__ (macros st) && (v <? 200)%Z).
  - apply capability_gate_on, E.
  - apply capability_gate_off, E.
Qed.

Lemma capability_gate_undecided st :
  if_value __CUDA_ARCH__ (macros st) = None -> capability_gate st = None.
Proof.
  intros Hv. unfold capability_gate, gate_condition. rewrite Hv. reflexivity.
Qed.

(** C6: what the gate does to a unit is a function of two inputs, whether
    [__CUDA_ARCH__] is defined and the value it has.  The gate returns the
    unit with [assert] substituted when the macro is defined and its value
    is below 200, and the unit as it found it otherwise; so two units that
    agree on the two inputs are both substituted or both left alone,
    whatever else their macro tables hold, and the same holds of the whole
    header on a first inclusion, with the inputs read from the unit that
    includes it.  Each input alone can change what happens to [assert].  The
    decision belongs to the unit, not to an execution: according to the same
    two inputs, every assertion statement in every run-time state is the
    null statement, or every one runs as before the gate; and once the guard
    is defined, including the header again evaluates nothing. *)
Theorem decision_is_pure :
  (forall st v,
     if_value __CUDA_ARCH__ (macros st) = Some v ->
     capability_gate st
     = Some (if pp_defined __CUDA_ARCH__ (macros st) && (v <? 200)%Z
             then substituted st else st)) /\
  (forall st1 st2,
     pp_defined __CUDA_ARCH__ (macros st1)
     = pp_defined __CUDA_ARCH__ (macros st2) ->
     if_value __CUDA_ARCH__ (macros st1)
     = if_value __CUDA_ARCH__ (macros st2) ->
     (capability_gate st1 = None /\ capability_gate st2 = None) \/
     exists b : bool,
       capability_gate st1 = Some (if b then substituted st1 else st1) /\
       capability_gate st2 = Some (if b then substituted st2 else st2)) /\
  (preserves __CUDA_ARCH__ assert_h ->
   preserves __CUDA_ARCH__ cuda_runtime_h ->
   forall st v,
     pp_defined __ACCELERATE_CUDA_ASSERT_H__ (macros st) = false ->
     if_value __CUDA_ARCH__ (macros st) = Some v ->
     accelerate_cuda_assert_h assert_h cuda_runtime_h st
     = Some (if pp_defined __CUDA_ARCH__ (macros st) && (v <? 200)%Z
             then substituted (at_gate assert_h cuda_runtime_h st)
             else at_gate assert_h cuda_runtime_h st)) /\
  (exists st1 st2 r1 r2,
     macros st1 !! assert = macros st2 !! assert /\
     if_value __CUDA_ARCH__ (macros st1)
     = if_value __CUDA_ARCH__ (macros st2) /\
     capability_gate st1 = Some r1 /\ capability_gate st2 = Some r2 /\
     macros r1 !! assert <> macros r2 !! assert) /\
  (exists st1 st2 r1 r2,
     macros st1 !! assert = macros st2 !! assert /\
     pp_defined __CUDA_ARCH__ (macros st1)
     = pp_defined __CUDA_ARCH__ (macros st2) /\
     capability_gate st1 = Some r1 /\ capability_gate st2 = Some r2 /\
     macros r1 !! assert <> macros r2 !! assert) /\
  (forall st v st',
     if_value __CUDA_ARCH__ (macros st) = Some v ->
     capability_gate st = Some st' ->
     forall loc arg s,
       run_assert state sem (macros st') loc arg s
       = if pp_defined __CUDA_ARCH__ (macros st) && (v <? 200)%Z
         then Some (Continue s)
         else run_assert state sem (macros st) loc arg s) /\
  (forall st,
     pp_defined __ACCELERATE_CUDA_ASSERT_H__ (macros st) = true ->
     accelerate_cuda_assert_h assert_h cuda_runtime_h st = Some st).
Proof.
  split; [exact capability_gate_decides|].
  split.
  { intros st1 st2 Hd Hv.
    destruct (if_value __CUDA_ARCH__ (macros st2)) as [v|] eqn:E2.
    - right.
      exists (pp_defined __CUDA_ARCH__ (macros st2) && (v <? 200)%Z).
      split.
      + rewrite <- Hd. apply capability_gate_decides, Hv.
      + apply capability_gate_decides, E2.
    - left. split; apply capability_gate_undecided; assumption. }
  split.
  { intros Ha Hc st v G Hv.
    rewrite header_first by exact G.
    fold (at_gate assert_h cuda_runtime_h st).
    assert (L : macros (at_gate assert_h cuda_runtime_h st) !! __CUDA_ARCH__
                = macros st !! __CUDA_ARCH__).
    { apply at_gate_preserves; [discriminate|assumption..]. }
    rewrite <- (pp_defined_ext _ _ _ L).
    apply capability_gate_decides.
    rewrite (if_value_ext _ _ _ L). exact Hv. }
  split.
  { exists (UnitState ∅ []),
           (UnitState {[__CUDA_ARCH__ := ObjLike [TInt 0]]} []),
           (UnitState ∅ []),
           (substituted (UnitState {[__CUDA_ARCH__ := ObjLike [TInt 0]]} [])).
    repeat split; try reflexivity. vm_compute. discriminate. }
  split.
  { exists (UnitState {[__CUDA_ARCH__ := ObjLike [TInt 110]]} []),
           (UnitState {[__CUDA_ARCH__ := ObjLike [TInt 300]]} []),
           (substituted (UnitState {[__CUDA_ARCH__ := ObjLike [TInt 110]]} [])),
           (UnitState {[__CUDA_ARCH__ := ObjLike [TInt 300]]} []).
    repeat split; try reflexivity. vm_compute. discriminate. }
  split.
  { intros st v st' Hv G loc arg s.
    rewrite (capability_gate_decides st v Hv) in G. injection G as <-.
    destruct (pp_defined __CUDA_ARCH__ (macros st) && (v <? 200)%Z).
    - apply run_noop, lookup_insert_eq.
    - reflexivity. }
  intros st. apply header_again.
Qed.

End Decision.

(** ** The gate cannot fail *)

Lemma gate_condition_total (m : gmap string macro) :
  arch_well_formed m -> exists c, gate_condition m = Some c.
Proof.
  intros [H|[v H]].
  - exists false. apply gate_condition_undefined, H.
  - exists (v <? 200)%Z. apply gate_condition_literal, H.
Qed.

Section Safety.

Variable assert_h : gmap string macro -> gmap string macro.
Variable cuda_runtime_h : gmap string macro -> gmap string macro.
Variable state : Type.
Variable sem : location -> list token -> state -> outcome state.

Hypothesis assert_h_arch : preserves __CUDA_ARCH__ assert_h.
Hypothesis cuda_runtime_h_arch : preserves __CUDA_ARCH__ cuda_runtime_h.

(** C8: with [__CUDA_ARCH__] absent or defined as any integer, the gate and
    the whole header return a unit, never an error; and an assertion that
    terminates the unit of work after the gate, with some diagnostic, would
    have terminated it with the same diagnostic before the gate. *)
Theorem gate_never_fails (st : unit_state) :
  arch_well_formed (macros st) ->
  is_Some (capability_gate st) /\
  is_Some (accelerate_cuda_assert_h assert_h cuda_runtime_h st) /\
  forall st', capability_gate st = Some st' ->
    forall loc arg s s' d,
      run_assert state sem (macros st') loc arg s = Some (Terminate s' d) ->
      run_assert state sem (macros st) loc arg s = Some (Terminate s' d).
Proof.
  intros Hwf. destruct (gate_condition_total _ Hwf) as [c Hc].
  split; [apply (capability_gate_total st c Hc)|]. split.
  - destruct (pp_defined __ACCELERATE_CUDA_ASSERT_H__ (macros st)) eqn:G.
    + rewrite header_again by exact G. eauto.
    + rewrite header_first by exact G.
      apply (capability_gate_total _ c). rewrite <- Hc.
      apply gate_condition_ext.
      apply at_gate_preserves; [discriminate|assumption..].
  - intros st' H loc arg s s' d.
    destruct (gate_fixes_the_facility state sem st st' H) as [Hn|Hi].
    + rewrite Hn. discriminate.
    + rewrite Hi. trivial.
Qed.

End Safety.

Lemma gate_never_fails_witness :
  is_Some (capability_gate (Sample.device_unit 1 1)) /\
  is_Some (accelerate_cuda_assert_h Sample.assert_h Sample.cuda_runtime_h
             (Sample.device_unit 1 1)) /\
  forall st', capability_gate (Sample.device_unit 1 1) = Some st' ->
    forall loc arg s s' d,
      run_assert Sample.state Sample.sem (macros st') loc arg s
      = Some (Terminate s' d) ->
      run_assert Sample.state Sample.sem (macros (Sample.device_unit 1 1))
        loc arg s = Some (Terminate s' d).
Proof.
  apply (gate_never_fails Sample.assert_h Sample.cuda_runtime_h
           Sample.state Sample.sem
           (sample_assert_h_preserves __CUDA_ARCH__ ltac:(discriminate))
           (sample_cuda_runtime_h_preserves __CUDA_ARCH__ ltac:(discriminate))
           (Sample.device_unit 1 1)).
  right. exists (arch_code 1 1). reflexivity.
Defined.

(** Outside that domain the condition of line 24 has no value: with
    [__CUDA_ARCH__] defined as nothing, [( < 200)] is not an expression. *)
Example empty_arch_is_rejected :
  capability_gate (UnitState {[__CUDA_ARCH__ := ObjLike []]} []) = None.
Proof. vm_compute. reflexivity. Qed.

(** ** Runtime compilation *)

Section Rtc.

Variable assert_h : gmap string macro -> gmap string macro.
Variable cuda_runtime_h : gmap string macro -> gmap string macro.

(** C10: on a first inclusion under NVRTC the header is the gate applied to
    the unit with only the guard added, and the list of included headers
    stays as it was; otherwise it is the gate applied after [<assert.h>] and
    [<cuda_runtime.h>], which are added to the list in this order.  In both
    modes it is the same gate, applied to the unit as it reaches line 24,
    and with platform headers that leave [__CUDA_ARCH__] alone its condition
    is the one of the unit that included the header. *)
Theorem rtc_skips_platform_headers (st : unit_state) :
  pp_defined __ACCELERATE_CUDA_ASSERT_H__ (macros st) = false ->
  (pp_defined __CUDACC_RTC__ (macros st) = true ->
   accelerate_cuda_assert_h assert_h cuda_runtime_h st
   = capability_gate (guarded st) /\
   forall st', accelerate_cuda_assert_h assert_h cuda_runtime_h st = Some st' ->
     included st' = included st) /\
  (pp_defined __CUDACC_RTC__ (macros st) = false ->
   accelerate_cuda_assert_h assert_h cuda_runtime_h st
   = capability_gate
       (pp_include "cuda_runtime.h" cuda_runtime_h
          (pp_include "assert.h" assert_h (guarded st))) /\
   forall st', accelerate_cuda_assert_h assert_h cuda_runtime_h st = Some st' ->
     included st' = included st ++ ["assert.h"; "cuda_runtime.h"]) /\
  accelerate_cuda_assert_h assert_h cuda_runtime_h st
  = capability_gate (at_gate assert_h cuda_runtime_h st) /\
  (preserves __CUDA_ARCH__ assert_h -> preserves __CUDA_ARCH__ cuda_runtime_h ->
   gate_condition (macros (at_gate assert_h cuda_runtime_h st))
   = gate_condition (macros st)).
Proof.
  intros G.
  assert (R : pp_defined __CUDACC_RTC__ (macros (guarded st))
              = pp_defined __CUDACC_RTC__ (macros st)).
  { apply pp_defined_ext, guarded_lookup_ne. discriminate. }
  pose proof (header_first assert_h cuda_runtime_h st G) as E.
  split; [|split; [|split]].
  - intros Hr. split.
    + rewrite E. unfold at_gate, platform_headers. rewrite R, Hr.
      reflexivity.
    + intros st' H'. rewrite E in H'.
      apply capability_gate_frame in H' as [-> _].
      unfold at_gate, platform_headers. rewrite R, Hr. reflexivity.
  - intros Hr. split.
    + rewrite E. unfold at_gate, platform_headers. rewrite R, Hr.
      reflexivity.
    + intros st' H'. rewrite E in H'.
      apply capability_gate_frame in H' as [-> _].
      unfold at_gate, platform_headers. rewrite R, Hr. simpl.
      rewrite <- app_assoc. reflexivity.
  - exact E.
  - intros Ha Hc. apply gate_condition_ext.
    apply at_gate_preserves; [discriminate|assumption..].
Qed.

End Rtc.

Lemma rtc_skips_platform_headers_witness :
  accelerate_cuda_assert_h Sample.assert_h Sample.cuda_runtime_h Sample.rtc_unit
  = capability_gate (guarded Sample.rtc_unit) /\
  forall st',
    accelerate_cuda_assert_h Sample.assert_h Sample.cuda_runtime_h
      Sample.rtc_unit = Some st' ->
    included st' = included Sample.rtc_unit.
Proof.
  apply (proj1 (rtc_skips_platform_headers Sample.assert_h
                  Sample.cuda_runtime_h Sample.rtc_unit ltac:(reflexivity))).
  reflexivity.
Defined.

Example rtc_unit_includes_nothing :
  included <$> accelerate_cuda_assert_h Sample.assert_h Sample.cuda_runtime_h
                 Sample.rtc_unit
  = Some [].
Proof. vm_compute. reflexivity. Qed.

Example device_unit_includes_platform :
  included <$> accelerate_cuda_assert_h Sample.assert_h Sample.cuda_runtime_h
                 (Sample.device_unit 1 1)
  = Some ["assert.h"; "cuda_runtime.h"].
Proof. vm_compute. reflexivity. Qed.

Example rtc_unit_assert_is_noop :
  (st' ← accelerate_cuda_assert_h Sample.assert_h Sample.cuda_runtime_h
           Sample.rtc_unit;
   macros st' !! assert)
  = Some noop_assert.
Proof. vm_compute. reflexivity. Qed.

(** ** Further properties of the header *)

(** *** Lines 24-27: the gate on its own *)

(** X2: a unit in which [assert] already has the empty definition goes
    through the gate unchanged, whatever [__CUDA_ARCH__] says: the gate
    never brings a disabled assertion back. *)
Theorem gate_keeps_disabled (st st' : unit_state) :
  macros st !! assert = Some noop_assert ->
  capability_gate st = Some st' ->
  st' = st.
Proof.
  intros H G. destruct (gate_condition (macros st)) as [[|]|] eqn:E.
  - rewrite (capability_gate_on st E) in G. injection G as <-.
    rewrite (insert_id _ _ _ H). destruct st. reflexivity.
  - rewrite (capability_gate_off st E) in G. injection G as <-. reflexivity.
  - unfold capability_gate in G. rewrite E in G. discriminate.
Qed.

Lemma gate_keeps_disabled_witness :
  UnitState (<[assert := noop_assert]> (macros (Sample.device_unit 3 0))) []
  = UnitState (<[assert := noop_assert]> (macros (Sample.device_unit 3 0))) [].
Proof.
  apply (gate_keeps_disabled
           (UnitState (<[assert := noop_assert]>
                         (macros (Sample.device_unit 3 0))) [])).
  - reflexivity.
  - vm_compute. reflexivity.
Defined.



(** *** Lines 13-29: the header as a whole *)

Section Whole.

Variable assert_h : gmap string macro -> gmap string macro.
Variable cuda_runtime_h : gmap string macro -> gmap string macro.

(** X4: a successful inclusion leaves alone every name that is neither
    [assert] nor the include guard and that the platform headers leave
    alone; in particular the macros the header tests keep their meaning for
    whatever is included next. *)
Theorem header_frame (st st' : unit_state) (x : string) :
  preserves x assert_h ->
  preserves x cuda_runtime_h ->
  x <> assert ->
  x <> __ACCELERATE_CUDA_ASSERT_H__ ->
  accelerate_cuda_assert_h assert_h cuda_runtime_h st = Some st' ->
  macros st' !! x = macros st !! x.
Proof.
  intros Pa Pc Ha Hg H.
  destruct (pp_defined __ACCELERATE_CUDA_ASSERT_H__ (macros st)) eqn:G.
  - rewrite header_again in H by exact G. injection H as <-. reflexivity.
  - rewrite header_first in H by exact G.
    apply capability_gate_frame in H as [_ H]. rewrite H by exact Ha.
    apply at_gate_preserves; assumption.
Qed.

(** X5: under NVRTC a successful inclusion changes no name other than
    [assert] and the include guard and adds nothing to the list of included
    headers, whatever the platform headers would have done. *)
Theorem rtc_header_frame (st st' : unit_state) :
  pp_defined __CUDACC_RTC__ (macros st) = true ->
  accelerate_cuda_assert_h assert_h cuda_runtime_h st = Some st' ->
  included st' = included st /\
  forall x, x <> assert -> x <> __ACCELERATE_CUDA_ASSERT_H__ ->
    macros st' !! x = macros st !! x.
Proof.
  intros R H.
  destruct (pp_defined __ACCELERATE_CUDA_ASSERT_H__ (macros st)) eqn:G.
  - rewrite header_again in H by exact G. injection H as <-.
    split; reflexivity.
  - rewrite header_first in H by exact G.
    assert (E : platform_headers assert_h cuda_runtime_h (guarded st)
                = guarded st).
    { unfold platform_headers.
      rewrite (pp_defined_ext __CUDACC_RTC__ (macros (guarded st)) (macros st))
        by (apply guarded_lookup_ne; discriminate).
      rewrite R. reflexivity. }
    rewrite E in H. apply capability_gate_frame in H as [Hi Hm].
    split; [exact Hi|]. intros x Ha Hg. rewrite Hm by exact Ha.
    apply guarded_lookup_ne, Hg.
Qed.

(** The platform headers do not touch this header's include guard. *)
Hypothesis assert_h_guard : preserves __ACCELERATE_CUDA_ASSERT_H__ assert_h.
Hypothesis cuda_runtime_h_guard :
  preserves __ACCELERATE_CUDA_ASSERT_H__ cuda_runtime_h.

(** X7: a successful first inclusion leaves the include guard defined, as
    an object-like macro with an empty replacement list. *)
Theorem header_sets_guard (st st' : unit_state) :
  pp_defined __ACCELERATE_CUDA_ASSERT_H__ (macros st) = false ->
  accelerate_cuda_assert_h assert_h cuda_runtime_h st = Some st' ->
  macros st' !! __ACCELERATE_CUDA_ASSERT_H__ = Some (ObjLike []).
Proof.
  intros G H. rewrite header_first in H by exact G.
  apply capability_gate_frame in H as [_ H]. rewrite H by discriminate.
  rewrite platform_headers_preserves by assumption.
  apply lookup_insert_eq.
Qed.

(** X8: the gate is not applied a second time.  When [<assert.h>] is
    included again after this header, a further inclusion of this header
    returns the unit as it is, so [assert] stays as that [<assert.h>] left
    it, also in a device pass below capability 2.0. *)
Theorem guard_blocks_second_gate (st st1 : unit_state) :
  accelerate_cuda_assert_h assert_h cuda_runtime_h st = Some st1 ->
  accelerate_cuda_assert_h assert_h cuda_runtime_h
    (pp_include "assert.h" assert_h st1)
  = Some (pp_include "assert.h" assert_h st1) /\
  macros (pp_include "assert.h" assert_h st1) !! assert
  = assert_h (macros st1) !! assert.
Proof.
  intros H. split; [|reflexivity].
  apply header_again. simpl.
  rewrite (pp_defined_ext _ _ (macros st1)) by apply assert_h_guard.
  destruct (pp_defined __ACCELERATE_CUDA_ASSERT_H__ (macros st)) eqn:G.
  - rewrite header_again in H by exact G. injection H as <-. exact G.
  - rewrite header_first in H by exact G.
    apply capability_gate_frame in H as [_ H].
    apply pp_defined_true. rewrite H by discriminate.
    rewrite platform_headers_preserves by assumption.
    simpl. rewrite lookup_insert_eq. eauto.
Qed.

End Whole.

Lemma header_frame_witness :
  macros Sample.device_1_1_after !! __CUDA_ARCH__
  = macros (Sample.device_unit 1 1) !! __CUDA_ARCH__.
Proof.
  apply (header_frame Sample.assert_h Sample.cuda_runtime_h
           (Sample.device_unit 1 1) Sample.device_1_1_after __CUDA_ARCH__
           (sample_assert_h_preserves __CUDA_ARCH__ ltac:(discriminate))
           (sample_cuda_runtime_h_preserves __CUDA_ARCH__ ltac:(discriminate))).
  - discriminate.
  - discriminate.
  - vm_compute. reflexivity.
Defined.

Lemma rtc_header_frame_witness :
  included Sample.rtc_after = included Sample.rtc_unit /\
  forall x, x <> assert -> x <> __ACCELERATE_CUDA_ASSERT_H__ ->
    macros Sample.rtc_after !! x = macros Sample.rtc_unit !! x.
Proof.
  apply (rtc_header_frame Sample.assert_h Sample.cuda_runtime_h
           Sample.rtc_unit Sample.rtc_after).
  - reflexivity.
  - vm_compute. reflexivity.
Defined.

Lemma header_sets_guard_witness :
  macros Sample.host_after !! __ACCELERATE_CUDA_ASSERT_H__
  = Some (ObjLike []).
Proof.
  apply (header_sets_guard Sample.assert_h Sample.cuda_runtime_h
           (sample_assert_h_preserves __ACCELERATE_CUDA_ASSERT_H__
              ltac:(discriminate))
           (sample_cuda_runtime_h_preserves __ACCELERATE_CUDA_ASSERT_H__
              ltac:(discriminate))
           Sample.host_unit Sample.host_after).
  - reflexivity.
  - vm_compute. reflexivity.
Defined.

Lemma guard_blocks_second_gate_witness :
  accelerate_cuda_assert_h Sample.assert_h Sample.cuda_runtime_h
    (pp_include "assert.h" Sample.assert_h Sample.device_1_1_after)
  = Some (pp_include "assert.h" Sample.assert_h Sample.device_1_1_after) /\
  macros (pp_include "assert.h" Sample.assert_h Sample.device_1_1_after)
    !! assert
  = Sample.assert_h (macros Sample.device_1_1_after) !! assert.
Proof.
  apply (guard_blocks_second_gate Sample.assert_h Sample.cuda_runtime_h
           (sample_assert_h_preserves __ACCELERATE_CUDA_ASSERT_H__
              ltac:(discriminate))
           (sample_cuda_runtime_h_preserves __ACCELERATE_CUDA_ASSERT_H__
              ltac:(discriminate))
           (Sample.device_unit 1 1) Sample.device_1_1_after).
  vm_compute. reflexivity.
Defined.

(** For capability 1.1: the header, then [<assert.h>] again, then the header
    again; [assert(0)] is checked and terminates the unit of work. *)
Example reincluded_assert_h_checks_again :
  (st1 ← accelerate_cuda_assert_h Sample.assert_h Sample.cuda_runtime_h
           (Sample.device_unit 1 1);
   st2 ← accelerate_cuda_assert_h Sample.assert_h Sample.cuda_runtime_h
           (pp_include "assert.h" Sample.assert_h st1);
   run_assert Sample.state Sample.sem (macros st2) Sample.here [TInt 0] [])
  = Some (Terminate [] (Diagnostic [TInt 0] Sample.here)).
Proof. vm_compute. reflexivity. Qed.
